(** * libhal-stm32f1: the Conan recipe's platform configuration logic

    A shallow embedding of [conanfile.py] (class [libhal_stm32f1_conan]):
    the ownership test [_is_me], the linker flag derivation
    [add_linker_scripts_to_link_flags], the resolution step [package_info]
    and the identity normalisation [package_id].

    Modelling conventions.
    - A Python [str] is a Rocq [string]; the recipe's identifiers are ASCII,
      one [ascii] per character, so [len] is [String.length].
    - A Python exception is the [Raise] branch of [result].
    - The recipe object [self] is the record [ConanFile]; a method that
      mutates [self] is a function [ConanFile -> result ConanFile].
    - Dictionaries of the host (the properties of [cpp_info], the variables
      of [buildenv_info], the options of [self.info]) are [gmap]s keyed by
      strings. *)

From Stdlib Require Import String Ascii List Bool Arith Lia.
From stdpp Require Import gmap strings list fin_maps.

Local Open Scope string_scope.

(** ** Python values and exceptions *)

Module Py.

Inductive exception : Type :=
| IndexError        (* list assignment index out of range *)
| ConanException.   (* raised by the host, e.g. deleting an unknown option *)

Inductive result (A : Type) : Type :=
| Ok (a : A)
| Raise (e : exception).

Arguments Ok {A} a.
Arguments Raise {A} e.

Definition bind {A B : Type} (m : result A) (k : A -> result B) : result B :=
  match m with
  | Ok a => k a
  | Raise e => Raise e
  end.

(** [l[i] = x] for a literal, non-negative index [i]: Python raises
    [IndexError] when [i] is not below [len(l)]. *)
Definition setitem {A : Type} (l : list A) (i : nat) (x : A) : result (list A) :=
  if (i <? length l)%nat then Ok (<[i := x]> l) else Raise IndexError.

(** [s.startswith(pre)] *)
Fixpoint startswith (s pre : string) {struct pre} : bool :=
  match pre with
  | EmptyString => true
  | String c pre' =>
      match s with
      | EmptyString => false
      | String d s' => Ascii.eqb c d && startswith s' pre'
      end
  end.

(** [s.endswith(suf)] *)
Definition endswith (s suf : string) : bool :=
  let n := String.length s in
  let k := String.length suf in
  (k <=? n)%nat && String.eqb (String.substring (n - k) k s) suf.

(** [os.path.join(a, b)] on a POSIX host ([posixpath.join] with two
    components): an absolute [b] discards [a]; otherwise [b] is appended,
    with a separator unless [a] is empty or already ends with one. *)
Definition path_join (a b : string) : string :=
  if startswith b "/" then b
  else if String.eqb a "" || endswith a "/" then a +:+ b
  else a +:+ "/" +:+ b.

End Py.

Import Py.

(** [result] with stdpp's monad notation: [x ← m; k] runs [m] and stops at
    the first exception. *)
#[global] Instance result_bind : MBind result := fun A B k m => bind m k.

(** ** The recipe object *)

Record CppInfo : Type := mkCppInfo {
  libs : list string;
  properties : gmap string string;
  exelinkflags : list string
}.

Record ConanFile : Type := mkConanFile {
  settings_os : string;          (* self.settings.os *)
  options_platform : string;     (* str(self.options.platform) *)
  package_folder : string;       (* self.package_folder *)
  cpp_info : CppInfo;            (* self.cpp_info *)
  buildenv_info : gmap string string   (* self.buildenv_info *)
}.

Definition set_libs (l : list string) (c : CppInfo) : CppInfo :=
  mkCppInfo l (properties c) (exelinkflags c).

Definition set_property (k v : string) (c : CppInfo) : CppInfo :=
  mkCppInfo (libs c) (<[k := v]> (properties c)) (exelinkflags c).

Definition set_exelinkflags (f : list string) (c : CppInfo) : CppInfo :=
  mkCppInfo (libs c) (properties c) f.

Definition with_cpp_info (c : CppInfo) (self : ConanFile) : ConanFile :=
  mkConanFile (settings_os self) (options_platform self) (package_folder self)
              c (buildenv_info self).

(** [self.buildenv_info.define(k, v)]: the variable [k] is set to [v],
    replacing an earlier definition. *)
Definition buildenv_define (k v : string) (self : ConanFile) : ConanFile :=
  mkConanFile (settings_os self) (options_platform self) (package_folder self)
              (cpp_info self) (<[k := v]> (buildenv_info self)).

(** The recipe as the host hands it to [package_info]: nothing exposed yet. *)
Definition new_recipe (os platform folder : string) : ConanFile :=
  mkConanFile os platform folder (mkCppInfo [] ∅ []) ∅.

(** ** conanfile.py *)

(** Lines 48-53: the platform string as a list of characters, items 8 and 9
    overwritten by ['x'], joined again. *)
Definition linker_script_name (platform : string) : result string :=
  let l0 := list_ascii_of_string platform in
  l1 ← setitem l0 8 "x"%char;
  l2 ← setitem l1 9 "x"%char;
  Ok (string_of_list_ascii l2).

(** The value of [linker_script_name] when neither assignment raises. *)
Definition wildcard (platform : string) : string :=
  string_of_list_ascii
    (<[9 := "x"%char]> (<[8 := "x"%char]> (list_ascii_of_string platform))).

(** Lines 48-58: the list assigned to [exelinkflags], as a function of the
    platform string and the package folder (the specification's
    [derive_linker_config]). *)
Definition derive_linker_config (platform folder : string) : result (list string) :=
  name ← linker_script_name platform;
  Ok [ "-L" +:+ path_join folder "linker_scripts";
       "-T" +:+ path_join "libhal-stm32f1" (name +:+ ".ld") ].

Definition add_linker_scripts_to_link_flags (self : ConanFile) : result ConanFile :=
  flags ← derive_linker_config (options_platform self) (package_folder self);
  Ok (with_cpp_info (set_exelinkflags flags (cpp_info self)) self).

(** Lines 62-65, on the platform string (the specification's [owns]). *)
Definition owns (platform : string) : bool :=
  startswith platform "stm32f1" && (String.length platform =? 11)%nat.

Definition _is_me (self : ConanFile) : bool :=
  owns (options_platform self).

Definition package_info (self : ConanFile) : result ConanFile :=
  let self := with_cpp_info (set_libs ["libhal-stm32f1"] (cpp_info self)) self in
  let self :=
    with_cpp_info (set_property "cmake_target_name" "libhal::stm32f1" (cpp_info self)) self in
  if String.eqb (settings_os self) "baremetal" && _is_me self then
    self ← add_linker_scripts_to_link_flags self;
    let self := buildenv_define "LIBHAL_PLATFORM" (options_platform self) self in
    let self := buildenv_define "LIBHAL_PLATFORM_LIBRARY" "stm32f1" self in
    Ok self
  else Ok self.

(** [n] successive calls of [add_linker_scripts_to_link_flags] on the same
    recipe object. *)
Fixpoint call_times (n : nat) (self : ConanFile) : result ConanFile :=
  match n with
  | O => Ok self
  | S n' => self' ← add_linker_scripts_to_link_flags self; call_times n' self'
  end.

(** *** Package identity (lines 78-80)

    [self.info.options] is a dictionary of the host from option names to
    option values.  The value type [V] and the truth value the host gives an
    option value in a condition ([truthy]) are not part of the recipe. *)

Section PackageId.

Context {V : Type}.
Variable truthy : V -> bool.

(** [options.get_safe(field)]: the value, or [None] for an unknown field. *)
Definition get_safe (field : string) (opts : gmap string V) : option V :=
  opts !! field.

(** [del options.<field>]: the host raises on an unknown field. *)
Definition delattr (field : string) (opts : gmap string V) : result (gmap string V) :=
  match opts !! field with
  | Some _ => Ok (delete field opts)
  | None => Raise ConanException
  end.

(** The condition [if x:] on the result of [get_safe]: [None] is false. *)
Definition cond_of (x : option V) : bool :=
  match x with
  | Some v => truthy v
  | None => false
  end.

Definition package_id (info_options : gmap string V) : result (gmap string V) :=
  if cond_of (get_safe "platform" info_options)
  then delattr "platform" info_options
  else Ok info_options.

End PackageId.

(** Python's truth value of a string: false exactly on the empty string.
    (Conan's option values agree on the empty string and are also false on
    ["0"], ["off"], ["false"] and ["none"].) *)
Definition str_bool (v : string) : bool :=
  negb (String.eqb v "").

(** ** Strings and characters *)

Section Strings.

Lemma startswith_spec (pre s : string) :
  startswith s pre = true <-> exists t, s = pre +:+ t.
Proof.
  revert s. induction pre as [|c pre IH]; intros s; simpl.
  - split; [eauto | reflexivity].
  - destruct s as [|d s].
    + split; [discriminate | intros [t Ht]; discriminate].
    + rewrite andb_true_iff, Ascii.eqb_eq, IH. split.
      * intros [-> [t ->]]. eauto.
      * intros [t Ht]. injection Ht as -> ->. eauto.
Qed.

Lemma length_list_ascii_of_string (s : string) :
  length (list_ascii_of_string s) = String.length s.
Proof. induction s; simpl; congruence. Qed.

Lemma length_string_of_list_ascii (l : list ascii) :
  String.length (string_of_list_ascii l) = length l.
Proof. induction l; simpl; congruence. Qed.

Lemma get_string_of_list_ascii (l : list ascii) (i : nat) :
  String.get i (string_of_list_ascii l) = l !! i.
Proof.
  revert i. induction l as [|a l IH]; intros [|i]; simpl; auto.
Qed.

Lemma lookup_list_ascii_of_string (s : string) (i : nat) :
  list_ascii_of_string s !! i = String.get i s.
Proof.
  rewrite <- get_string_of_list_ascii.
  now rewrite string_of_list_ascii_of_string.
Qed.

Lemma length_append (s t : string) :
  String.length (s +:+ t) = String.length s + String.length t.
Proof. induction s as [|a s IH]; simpl; [reflexivity | now rewrite IH]. Qed.

Lemma string_length_4 (t : string) :
  String.length t = 4 ->
  exists a b c d, t = String a (String b (String c (String d EmptyString))).
Proof.
  destruct t as [|a [|b [|c [|d [|e t]]]]]; simpl; try discriminate.
  intros _. eauto.
Qed.

End Strings.

(** ** The list assignment *)

Section Setitem.

Context {A : Type}.

Lemma setitem_in_range (l : list A) (i : nat) (x : A) :
  i < length l -> setitem l i x = Ok (<[i := x]> l).
Proof.
  intros H. unfold setitem.
  destruct (Nat.ltb_spec i (length l)); [reflexivity | lia].
Qed.

Lemma setitem_out_of_range (l : list A) (i : nat) (x : A) :
  length l <= i -> setitem l i x = Raise IndexError.
Proof.
  intros H. unfold setitem.
  destruct (Nat.ltb_spec i (length l)); [lia | reflexivity].
Qed.

End Setitem.

(** ** The ownership test *)

(** An owned identifier is the family prefix followed by four characters. *)
Lemma owns_shape (p : string) :
  owns p = true ->
  exists a b c d, p = "stm32f1" +:+ String a (String b (String c (String d ""))).
Proof.
  unfold owns. rewrite andb_true_iff, Nat.eqb_eq, startswith_spec.
  intros [[t ->] Hlen]. rewrite length_append in Hlen. simpl in Hlen.
  destruct (string_length_4 t) as (a & b & c & d & ->); [lia | eauto].
Qed.

(** C3: for every string [s], the empty and the malformed ones included,
    the ownership test answers true exactly when [s] starts with the
    literal prefix "stm32f1" and has exactly 11 characters; on the recipe
    object the test reads the platform option and returns a boolean only,
    the object is not changed. *)
Theorem owns_iff_prefix_and_length :
  forall s : string,
    (owns s = true <-> (exists t, s = "stm32f1" +:+ t) /\ String.length s = 11)
    /\ (forall os folder, _is_me (new_recipe os s folder) = owns s)
    /\ owns "" = false.
Proof.
  intros s. split; [|split; reflexivity].
  unfold owns. now rewrite andb_true_iff, Nat.eqb_eq, startswith_spec.
Qed.

(** ** The linker script name *)

Lemma linker_script_name_long (p : string) :
  10 <= String.length p -> linker_script_name p = Ok (wildcard p).
Proof.
  intros H. unfold linker_script_name.
  rewrite setitem_in_range by (rewrite length_list_ascii_of_string; lia).
  simpl. rewrite setitem_in_range; [reflexivity|].
  rewrite length_insert, length_list_ascii_of_string. lia.
Qed.

Lemma linker_script_name_short (p : string) :
  String.length p < 10 -> linker_script_name p = Raise IndexError.
Proof.
  intros H. unfold linker_script_name.
  destruct (Nat.lt_ge_cases 8 (String.length p)) as [H8|H8].
  - rewrite setitem_in_range by (rewrite length_list_ascii_of_string; lia).
    simpl. rewrite setitem_out_of_range; [reflexivity|].
    rewrite length_insert, length_list_ascii_of_string. lia.
  - rewrite setitem_out_of_range; [reflexivity|].
    rewrite length_list_ascii_of_string. lia.
Qed.

Lemma wildcard_length (p : string) :
  String.length (wildcard p) = String.length p.
Proof.
  unfold wildcard.
  now rewrite length_string_of_list_ascii, !length_insert,
    length_list_ascii_of_string.
Qed.

Lemma wildcard_get (p : string) (i : nat) :
  10 <= String.length p ->
  String.get i (wildcard p)
  = if (i =? 8)%nat || (i =? 9)%nat then Some "x"%char else String.get i p.
Proof.
  intros H. unfold wildcard. rewrite get_string_of_list_ascii.
  destruct (Nat.eqb_spec i 9) as [->|H9].
  - rewrite orb_true_r. apply list_lookup_insert_eq.
    rewrite length_insert, length_list_ascii_of_string. lia.
  - rewrite orb_false_r, list_lookup_insert_ne by congruence.
    destruct (Nat.eqb_spec i 8) as [->|H8].
    + apply list_lookup_insert_eq. rewrite length_list_ascii_of_string. lia.
    + rewrite list_lookup_insert_ne by congruence.
      apply lookup_list_ascii_of_string.
Qed.

Lemma owns_length (p : string) : owns p = true -> String.length p = 11.
Proof.
  unfold owns. rewrite andb_true_iff, Nat.eqb_eq. tauto.
Qed.

(** C6: for an owned identifier the script base name is the identifier
    with exactly the characters at index 8 and index 9 replaced by 'x':
    every other character and the length are kept. *)
Theorem script_name_wildcards_8_and_9 :
  forall p : string,
    owns p = true ->
    exists name,
      linker_script_name p = Ok name
      /\ String.length name = String.length p
      /\ String.get 8 name = Some "x"%char
      /\ String.get 9 name = Some "x"%char
      /\ forall i, i <> 8 -> i <> 9 -> String.get i name = String.get i p.
Proof.
  intros p Hp. pose proof (owns_length p Hp) as Hlen.
  exists (wildcard p). split; [apply linker_script_name_long; lia|].
  split; [apply wildcard_length|].
  split; [now rewrite wildcard_get by lia|].
  split; [now rewrite wildcard_get by lia|].
  intros i H8 H9. rewrite wildcard_get by lia.
  destruct (Nat.eqb_spec i 8); [congruence|].
  destruct (Nat.eqb_spec i 9); [congruence|]. reflexivity.
Qed.

Lemma script_name_wildcards_8_and_9_witness :
  owns "stm32f103rb" = true
  /\ exists name,
      linker_script_name "stm32f103rb" = Ok name
      /\ String.length name = String.length "stm32f103rb"
      /\ String.get 8 name = Some "x"%char
      /\ String.get 9 name = Some "x"%char
      /\ forall i, i <> 8 -> i <> 9 -> String.get i name = String.get i "stm32f103rb".
Proof.
  split; [reflexivity|].
  apply (script_name_wildcards_8_and_9 "stm32f103rb"). reflexivity.
Defined.

(** ** The linker flags *)

Lemma derive_linker_config_long (p root : string) :
  10 <= String.length p ->
  derive_linker_config p root
  = Ok [ "-L" +:+ path_join root "linker_scripts";
         "-T" +:+ path_join "libhal-stm32f1" (wildcard p +:+ ".ld") ].
Proof.
  intros H. unfold derive_linker_config.
  now rewrite linker_script_name_long.
Qed.

Lemma derive_linker_config_short (p root : string) :
  String.length p < 10 -> derive_linker_config p root = Raise IndexError.
Proof.
  intros H. unfold derive_linker_config.
  now rewrite linker_script_name_short.
Qed.

(** The script of an owned identifier is a relative path below the
    directory "libhal-stm32f1". *)
Lemma script_path_owned (p : string) :
  owns p = true ->
  path_join "libhal-stm32f1" (wildcard p +:+ ".ld")
  = "libhal-stm32f1/" +:+ wildcard p +:+ ".ld".
Proof.
  intros Hp. destruct (owns_shape p Hp) as (a & b & c & d & ->). reflexivity.
Qed.

Lemma search_path_plain_root (root : string) :
  root <> "" -> endswith root "/" = false ->
  path_join root "linker_scripts" = root +:+ "/linker_scripts".
Proof.
  intros Hne Hend. unfold path_join. simpl startswith. cbv iota.
  rewrite Hend, orb_false_r.
  destruct (String.eqb_spec root ""); [contradiction | reflexivity].
Qed.

Lemma add_linker_scripts_exelinkflags (self : ConanFile) (flags : list string) :
  derive_linker_config (options_platform self) (package_folder self) = Ok flags ->
  add_linker_scripts_to_link_flags self
  = Ok (with_cpp_info (set_exelinkflags flags (cpp_info self)) self).
Proof.
  intros H. unfold add_linker_scripts_to_link_flags. now rewrite H.
Qed.

(** C1 (as the code has it): for "stm32f103c8" below "/pkg" the flags are
    "-L/pkg/linker_scripts" and "-Tlibhal-stm32f1/stm32f10xx8.ld"; the script
    base name is "stm32f10xx8": the characters at index 8 and 9, which are
    '3' and 'c', are replaced by 'x'. *)
Theorem flags_of_stm32f103c8 :
  derive_linker_config "stm32f103c8" "/pkg"
  = Ok ["-L/pkg/linker_scripts"; "-Tlibhal-stm32f1/stm32f10xx8.ld"]
  /\ linker_script_name "stm32f103c8" = Ok "stm32f10xx8"
  /\ String.get 8 "stm32f103c8" = Some "3"%char
  /\ String.get 9 "stm32f103c8" = Some "c"%char
  /\ (exists self,
        add_linker_scripts_to_link_flags (new_recipe "baremetal" "stm32f103c8" "/pkg")
        = Ok self
        /\ exelinkflags (cpp_info self)
           = ["-L/pkg/linker_scripts"; "-Tlibhal-stm32f1/stm32f10xx8.ld"]).
Proof.
  repeat split. eexists. split; reflexivity.
Qed.

(** C1 as stated fails: the base name is not "stm32xxc8" and the script flag
    is not "-T libhal-stm32f1/stm32xxc8.ld" (with or without the blank); the
    characters at index 8 and 9 are not '0' and '3'. *)
Lemma flags_of_stm32f103c8_not_stm32xxc8 :
  linker_script_name "stm32f103c8" <> Ok "stm32xxc8"
  /\ derive_linker_config "stm32f103c8" "/pkg"
     <> Ok ["-L/pkg/linker_scripts"; "-T libhal-stm32f1/stm32xxc8.ld"]
  /\ derive_linker_config "stm32f103c8" "/pkg"
     <> Ok ["-L/pkg/linker_scripts"; "-Tlibhal-stm32f1/stm32xxc8.ld"]
  /\ String.get 8 "stm32f103c8" <> Some "0"%char.
Proof.
  repeat split; discriminate.
Qed.

(** C2 (as the code has it): for an owned identifier and any package root
    the result is exactly two flags in this order: "-L" with the join of the
    package root and "linker_scripts" (the root, "/linker_scripts" for a
    non-empty root without a trailing separator), then "-T" with the path
    "libhal-stm32f1/<script base name>.ld", which is relative: the package
    root is not part of it. *)
Theorem flags_search_path_then_script :
  forall p root : string,
    owns p = true ->
    exists name,
      linker_script_name p = Ok name
      /\ derive_linker_config p root
         = Ok [ "-L" +:+ path_join root "linker_scripts";
                "-T" +:+ "libhal-stm32f1/" +:+ name +:+ ".ld" ]
      /\ (root <> "" -> endswith root "/" = false ->
          path_join root "linker_scripts" = root +:+ "/linker_scripts").
Proof.
  intros p root Hp. pose proof (owns_length p Hp) as Hlen.
  exists (wildcard p). split; [apply linker_script_name_long; lia|].
  split; [|apply search_path_plain_root].
  rewrite derive_linker_config_long by lia.
  now rewrite script_path_owned.
Qed.

Lemma flags_search_path_then_script_witness :
  owns "stm32f103c8" = true
  /\ exists name,
      linker_script_name "stm32f103c8" = Ok name
      /\ derive_linker_config "stm32f103c8" "/pkg"
         = Ok [ "-L" +:+ path_join "/pkg" "linker_scripts";
                "-T" +:+ "libhal-stm32f1/" +:+ name +:+ ".ld" ]
      /\ ("/pkg" <> "" -> endswith "/pkg" "/" = false ->
          path_join "/pkg" "linker_scripts" = "/pkg" +:+ "/linker_scripts").
Proof.
  split; [reflexivity|].
  apply (flags_search_path_then_script "stm32f103c8" "/pkg"). reflexivity.
Defined.

(** C2 as stated fails: for the owned identifier "stm32f103c8" and the root
    "/pkg" the script flag does not begin with the package root. *)
Lemma script_flag_without_package_root :
  owns "stm32f103c8" = true
  /\ exists f1 f2,
      derive_linker_config "stm32f103c8" "/pkg" = Ok [f1; f2]
      /\ f2 <> "-T/pkg/libhal-stm32f1/stm32f10xx8.ld"
      /\ forall rest, f2 <> "-T" +:+ "/pkg" +:+ rest.
Proof.
  split; [reflexivity|]. do 2 eexists. split; [reflexivity|].
  split; [discriminate|]. intros rest. discriminate.
Qed.

(** ** The resolution step *)

Lemma package_info_skip (self : ConanFile) :
  String.eqb (settings_os self) "baremetal" && _is_me self = false ->
  exists r,
    package_info self = Ok r
    /\ exelinkflags (cpp_info r) = exelinkflags (cpp_info self)
    /\ buildenv_info r = buildenv_info self
    /\ libs (cpp_info r) = ["libhal-stm32f1"].
Proof.
  intros H. unfold package_info, _is_me in *. simpl. rewrite H.
  eexists. repeat split.
Qed.

Lemma package_info_emit (self : ConanFile) :
  String.eqb (settings_os self) "baremetal" && _is_me self = true ->
  exists r,
    package_info self = Ok r
    /\ derive_linker_config (options_platform self) (package_folder self)
       = Ok (exelinkflags (cpp_info r))
    /\ length (exelinkflags (cpp_info r)) = 2
    /\ buildenv_info r
       = <["LIBHAL_PLATFORM_LIBRARY" := "stm32f1"]>
           (<["LIBHAL_PLATFORM" := options_platform self]> (buildenv_info self))
    /\ libs (cpp_info r) = ["libhal-stm32f1"].
Proof.
  intros H. pose proof H as H'. apply andb_true_iff in H' as [_ Hme].
  pose proof (owns_length _ Hme) as Hlen.
  unfold package_info, _is_me in *. simpl. rewrite H.
  unfold add_linker_scripts_to_link_flags. simpl.
  rewrite derive_linker_config_long by lia. simpl.
  eexists. repeat split.
Qed.

(** C4 as stated fails: "stm32f407vg" is not owned, and the derivation,
    which has no check of its own, returns two flags for it. *)
Lemma derive_without_ownership_check :
  owns "stm32f407vg" = false
  /\ derive_linker_config "stm32f407vg" "/pkg"
     = Ok ["-L/pkg/linker_scripts"; "-Tlibhal-stm32f1/stm32f40xxg.ld"].
Proof. split; reflexivity. Qed.

(** C4 (as the code has it): the ownership check guards the call, it is not
    part of the derivation.  For an identifier that is not owned the
    resolution step returns normally without calling the derivation: the
    link flags and the build environment stay as they were.  Called directly
    on such an identifier, the derivation raises IndexError (and yields no
    flags) when the identifier has fewer than 10 characters, and returns
    flags otherwise. *)
Theorem unowned_guarded_by_caller :
  forall self : ConanFile,
    _is_me self = false ->
    (exists r,
        package_info self = Ok r
        /\ exelinkflags (cpp_info r) = exelinkflags (cpp_info self)
        /\ buildenv_info r = buildenv_info self)
    /\ (String.length (options_platform self) < 10 ->
        add_linker_scripts_to_link_flags self = Raise IndexError)
    /\ (10 <= String.length (options_platform self) ->
        exists r, add_linker_scripts_to_link_flags self = Ok r
                  /\ length (exelinkflags (cpp_info r)) = 2).
Proof.
  intros self Hme. split; [|split].
  - destruct (package_info_skip self) as (r & Hr & Hf & Hb & _).
    + rewrite Hme. apply andb_false_r.
    + exists r. auto.
  - intros Hlen. unfold add_linker_scripts_to_link_flags.
    now rewrite derive_linker_config_short.
  - intros Hlen. eexists. split.
    + apply add_linker_scripts_exelinkflags.
      now apply derive_linker_config_long.
    + reflexivity.
Qed.

Lemma unowned_guarded_by_caller_witness :
  _is_me (new_recipe "baremetal" "lpc4078" "/pkg") = false
  /\ (exists r,
        package_info (new_recipe "baremetal" "lpc4078" "/pkg") = Ok r
        /\ exelinkflags (cpp_info r) = []
        /\ buildenv_info r = ∅)
  /\ (String.length "lpc4078" < 10 ->
      add_linker_scripts_to_link_flags (new_recipe "baremetal" "lpc4078" "/pkg")
      = Raise IndexError)
  /\ (10 <= String.length "lpc4078" ->
      exists r,
        add_linker_scripts_to_link_flags (new_recipe "baremetal" "lpc4078" "/pkg") = Ok r
        /\ length (exelinkflags (cpp_info r)) = 2).
Proof.
  split; [reflexivity|].
  apply (unowned_guarded_by_caller (new_recipe "baremetal" "lpc4078" "/pkg")).
  reflexivity.
Defined.

(** C5: in a run of the resolution step on a recipe that exposes nothing
    yet, the link flags and the build environment definitions are produced
    if and only if the operating system setting is "baremetal" and the
    platform identifier is owned; otherwise neither is exposed.  The step
    itself always returns normally. *)
Theorem outputs_iff_baremetal_and_owned :
  forall os p folder : string,
    exists r,
      package_info (new_recipe os p folder) = Ok r
      /\ (exelinkflags (cpp_info r) <> [] <-> os = "baremetal" /\ owns p = true)
      /\ (buildenv_info r <> ∅ <-> os = "baremetal" /\ owns p = true)
      /\ (os = "baremetal" /\ owns p = true ->
          derive_linker_config p folder = Ok (exelinkflags (cpp_info r))
          /\ length (exelinkflags (cpp_info r)) = 2)
      /\ (~ (os = "baremetal" /\ owns p = true) ->
          exelinkflags (cpp_info r) = [] /\ buildenv_info r = ∅).
Proof.
  intros os p folder.
  destruct (String.eqb os "baremetal" && owns p) eqn:Hc.
  - destruct (package_info_emit (new_recipe os p folder) Hc)
      as (r & Hr & Hd & Hl & Hb & _).
    apply andb_true_iff in Hc as [Hos Hp]. apply String.eqb_eq in Hos.
    exists r. split; [exact Hr|]. simpl in Hd, Hb.
    split; [|split; [|split]].
    + split; [auto|]. intros _ E. rewrite E in Hl. discriminate.
    + split; [auto|]. intros _. rewrite Hb. apply insert_non_empty.
    + auto.
    + intros N. exfalso. auto.
  - destruct (package_info_skip (new_recipe os p folder) Hc)
      as (r & Hr & Hf & Hb & _).
    simpl in Hf, Hb.
    assert (N : ~ (os = "baremetal" /\ owns p = true)).
    { intros [Hos Hp]. apply String.eqb_eq in Hos.
      rewrite Hos, Hp in Hc. discriminate. }
    exists r. split; [exact Hr|].
    split; [|split; [|split]].
    + split; [congruence | tauto].
    + split; [congruence | tauto].
    + tauto.
    + auto.
Qed.

(** C8: for an owned identifier on a bare-metal target the resolution step
    defines exactly two build environment variables: LIBHAL_PLATFORM is the
    identifier verbatim and LIBHAL_PLATFORM_LIBRARY is the fixed tag
    "stm32f1"; for "stm32f103c8" this is the mapping
    {LIBHAL_PLATFORM: stm32f103c8, LIBHAL_PLATFORM_LIBRARY: stm32f1}. *)
Theorem exports_platform_and_library :
  forall p folder : string,
    owns p = true ->
    exists r,
      package_info (new_recipe "baremetal" p folder) = Ok r
      /\ buildenv_info r
         = <["LIBHAL_PLATFORM_LIBRARY" := "stm32f1"]> {["LIBHAL_PLATFORM" := p]}
      /\ buildenv_info r !! "LIBHAL_PLATFORM" = Some p
      /\ buildenv_info r !! "LIBHAL_PLATFORM_LIBRARY" = Some "stm32f1"
      /\ size (buildenv_info r) = 2
      /\ forall k, k <> "LIBHAL_PLATFORM" -> k <> "LIBHAL_PLATFORM_LIBRARY" ->
                   buildenv_info r !! k = None.
Proof.
  intros p folder Hp.
  destruct (package_info_emit (new_recipe "baremetal" p folder))
    as (r & Hr & _ & _ & Hb & _); [simpl; exact Hp|].
  simpl in Hb. exists r. split; [exact Hr|]. rewrite Hb.
  split; [reflexivity|].
  split; [now rewrite lookup_insert_ne, lookup_insert_eq|].
  split; [apply lookup_insert_eq|].
  split.
  - rewrite map_size_insert_None.
    + now rewrite map_size_insert_None by apply lookup_empty.
    + now rewrite lookup_insert_ne.
  - intros k H1 H2. now rewrite !lookup_insert_ne, lookup_empty by congruence.
Qed.

Lemma exports_platform_and_library_witness :
  owns "stm32f103c8" = true
  /\ exists r,
      package_info (new_recipe "baremetal" "stm32f103c8" "/pkg") = Ok r
      /\ buildenv_info r
         = <["LIBHAL_PLATFORM_LIBRARY" := "stm32f1"]> {["LIBHAL_PLATFORM" := "stm32f103c8"]}
      /\ buildenv_info r !! "LIBHAL_PLATFORM" = Some "stm32f103c8"
      /\ buildenv_info r !! "LIBHAL_PLATFORM_LIBRARY" = Some "stm32f1"
      /\ size (buildenv_info r) = 2
      /\ forall k, k <> "LIBHAL_PLATFORM" -> k <> "LIBHAL_PLATFORM_LIBRARY" ->
                   buildenv_info r !! k = None.
Proof.
  split; [reflexivity|].
  apply (exports_platform_and_library "stm32f103c8" "/pkg"). reflexivity.
Defined.

(** ** Repeated calls *)

Lemma call_times_fixed (self self' : ConanFile) :
  add_linker_scripts_to_link_flags self = Ok self' ->
  add_linker_scripts_to_link_flags self' = Ok self' ->
  forall n, call_times (S n) self = Ok self'.
Proof.
  intros H1 H2 n. simpl. rewrite H1. simpl.
  induction n as [|n IH]; simpl; [reflexivity|].
  rewrite H2. exact IH.
Qed.

(** C9: the derivation is a function of the platform identifier and the
    package root only: two recipe objects that agree on both get the same
    flags, whatever else they hold; and it is idempotent: calling it again
    on its own result, any number of times, changes nothing. *)
Theorem derive_deterministic_idempotent :
  forall self1 self2 : ConanFile,
    options_platform self1 = options_platform self2 ->
    package_folder self1 = package_folder self2 ->
    _is_me self1 = true ->
    exists flags r1 r2,
      derive_linker_config (options_platform self1) (package_folder self1) = Ok flags
      /\ add_linker_scripts_to_link_flags self1 = Ok r1
      /\ add_linker_scripts_to_link_flags self2 = Ok r2
      /\ exelinkflags (cpp_info r1) = flags
      /\ exelinkflags (cpp_info r2) = flags
      /\ add_linker_scripts_to_link_flags r1 = Ok r1
      /\ forall n, call_times (S n) self1 = Ok r1.
Proof.
  intros self1 self2 Hp Hf Hme.
  pose proof (owns_length _ Hme) as Hlen.
  pose proof (derive_linker_config_long (options_platform self1)
                (package_folder self1)) as Hd.
  specialize (Hd ltac:(lia)).
  set (flags := [ _ ; _ ]) in Hd.
  pose proof (add_linker_scripts_exelinkflags self1 flags Hd) as H1.
  assert (H2 : add_linker_scripts_to_link_flags self2
               = Ok (with_cpp_info (set_exelinkflags flags (cpp_info self2)) self2)).
  { apply add_linker_scripts_exelinkflags. now rewrite <- Hp, <- Hf. }
  assert (H3 : add_linker_scripts_to_link_flags
                 (with_cpp_info (set_exelinkflags flags (cpp_info self1)) self1)
               = Ok (with_cpp_info (set_exelinkflags flags (cpp_info self1)) self1)).
  { rewrite (add_linker_scripts_exelinkflags _ flags); [reflexivity | exact Hd]. }
  exists flags. do 2 eexists.
  split; [exact Hd|]. split; [exact H1|]. split; [exact H2|].
  split; [reflexivity|]. split; [reflexivity|]. split; [exact H3|].
  now apply call_times_fixed.
Qed.

Lemma derive_deterministic_idempotent_witness :
  let self1 := new_recipe "baremetal" "stm32f103c8" "/pkg" in
  let self2 := mkConanFile "linux" "stm32f103c8" "/pkg"
                 (mkCppInfo ["other"] ∅ ["-Wl,--gc-sections"]) ∅ in
  _is_me self1 = true
  /\ exists flags r1 r2,
      derive_linker_config (options_platform self1) (package_folder self1) = Ok flags
      /\ add_linker_scripts_to_link_flags self1 = Ok r1
      /\ add_linker_scripts_to_link_flags self2 = Ok r2
      /\ exelinkflags (cpp_info r1) = flags
      /\ exelinkflags (cpp_info r2) = flags
      /\ add_linker_scripts_to_link_flags r1 = Ok r1
      /\ forall n, call_times (S n) self1 = Ok r1.
Proof.
  intros self1 self2. split; [reflexivity|].
  apply (derive_deterministic_idempotent self1 self2); reflexivity.
Defined.

(** C10: for an owned identifier (11 characters) both assignments, at index
    8 and at index 9, are within the list, so the derivation returns
    normally: it does not raise IndexError. *)
Theorem owned_assignments_in_bounds :
  forall self : ConanFile,
    _is_me self = true ->
    let l0 := list_ascii_of_string (options_platform self) in
    8 < length l0
    /\ setitem l0 8 "x"%char = Ok (<[8 := "x"%char]> l0)
    /\ 9 < length (<[8 := "x"%char]> l0)
    /\ setitem (<[8 := "x"%char]> l0) 9 "x"%char
       = Ok (<[9 := "x"%char]> (<[8 := "x"%char]> l0))
    /\ (exists r, add_linker_scripts_to_link_flags self = Ok r)
    /\ add_linker_scripts_to_link_flags self <> Raise IndexError.
Proof.
  intros self Hme l0. pose proof (owns_length _ Hme) as Hlen.
  assert (H8 : 8 < length l0).
  { unfold l0. rewrite length_list_ascii_of_string. lia. }
  assert (H9 : 9 < length (<[8 := "x"%char]> l0)).
  { unfold l0. rewrite length_insert, length_list_ascii_of_string. lia. }
  split; [exact H8|]. split; [now apply setitem_in_range|].
  split; [exact H9|]. split; [now apply setitem_in_range|].
  erewrite add_linker_scripts_exelinkflags
    by (apply derive_linker_config_long; lia).
  split; [eauto | discriminate].
Qed.

Lemma owned_assignments_in_bounds_witness :
  let self := new_recipe "baremetal" "stm32f103c8" "/pkg" in
  _is_me self = true
  /\ let l0 := list_ascii_of_string (options_platform self) in
     8 < length l0
     /\ setitem l0 8 "x"%char = Ok (<[8 := "x"%char]> l0)
     /\ 9 < length (<[8 := "x"%char]> l0)
     /\ setitem (<[8 := "x"%char]> l0) 9 "x"%char
        = Ok (<[9 := "x"%char]> (<[8 := "x"%char]> l0))
     /\ (exists r, add_linker_scripts_to_link_flags self = Ok r)
     /\ add_linker_scripts_to_link_flags self <> Raise IndexError.
Proof.
  intros self. split; [reflexivity|].
  apply (owned_assignments_in_bounds self). reflexivity.
Defined.

(** ** Package identity *)

Section PackageIdFacts.

Context {V : Type}.
Variable truthy : V -> bool.

Lemma package_id_truthy (opts : gmap string V) (v : V) :
  opts !! "platform" = Some v -> truthy v = true ->
  package_id truthy opts = Ok (delete "platform" opts).
Proof.
  intros Hv Ht. unfold package_id, get_safe, delattr, cond_of.
  now rewrite Hv, Ht.
Qed.

Lemma package_id_falsy (opts : gmap string V) (v : V) :
  opts !! "platform" = Some v -> truthy v = false ->
  package_id truthy opts = Ok opts.
Proof.
  intros Hv Ht. unfold package_id, get_safe, cond_of.
  now rewrite Hv, Ht.
Qed.

Lemma package_id_absent (opts : gmap string V) :
  opts !! "platform" = None -> package_id truthy opts = Ok opts.
Proof.
  intros Hv. unfold package_id, get_safe, cond_of. now rewrite Hv.
Qed.

End PackageIdFacts.

(** C7 (as the code has it): the removal is guarded by the truth value of
    the option.  On a record whose "platform" value is true in a condition,
    the result is the record with exactly that key removed, every other key
    and value unchanged; on a record without the key, and on a record whose
    "platform" value is false in a condition, the result is the record
    itself.  No case raises. *)
Theorem platform_removed_when_truthy :
  forall (V : Type) (truthy : V -> bool) (opts : gmap string V),
    exists opts',
      package_id truthy opts = Ok opts'
      /\ (forall v, opts !! "platform" = Some v -> truthy v = true ->
            opts' = delete "platform" opts
            /\ opts' !! "platform" = None
            /\ forall k, k <> "platform" -> opts' !! k = opts !! k)
      /\ (opts !! "platform" = None -> opts' = opts)
      /\ (forall v, opts !! "platform" = Some v -> truthy v = false ->
            opts' = opts).
Proof.
  intros V truthy opts.
  destruct (opts !! "platform") as [v|] eqn:Hv.
  - destruct (truthy v) eqn:Ht.
    + exists (delete "platform" opts).
      split; [now apply (package_id_truthy truthy opts v)|].
      split; [|split].
      * intros w Hw _. split; [reflexivity|].
        split; [apply lookup_delete_eq|].
        intros k Hk. apply lookup_delete_ne. congruence.
      * discriminate.
      * intros w Hw Hf. congruence.
    + exists opts.
      split; [now apply (package_id_falsy truthy opts v)|].
      split; [|split].
      * intros w Hw Hf. congruence.
      * discriminate.
      * reflexivity.
  - exists opts.
    split; [now apply package_id_absent|].
    split; [|split]; try discriminate. reflexivity.
Qed.

(** C7 as stated fails: a record that contains the key "platform" with the
    empty string as its value is returned as it is, the key still there. *)
Lemma platform_kept_when_falsy :
  ({["platform" := ""]} : gmap string string) !! "platform" = Some ""
  /\ package_id str_bool {["platform" := ""]} = Ok {["platform" := ""]}
  /\ package_id str_bool {["platform" := ""]}
     <> Ok (delete "platform" {["platform" := ""]}).
Proof.
  assert (Hl : ({["platform" := ""]} : gmap string string) !! "platform" = Some "")
    by apply lookup_singleton_eq.
  generalize dependent ({["platform" := ""]} : gmap string string).
  intros opts Hl.
  assert (Hp : package_id str_bool opts = Ok opts)
    by (now apply (package_id_falsy str_bool opts "")).
  split; [exact Hl|]. split; [exact Hp|].
  rewrite Hp. intros E. injection E as E.
  rewrite E, lookup_delete_eq in Hl. discriminate.
Qed.

(** * Further properties of the recipe *)

(** ** Which identifiers share a linker script *)

Lemma wildcard_owned_form (a b c d : ascii) :
  wildcard ("stm32f1" +:+ String a (String b (String c (String d ""))))
  = "stm32f1" +:+ String a (String "x" (String "x" (String d ""))).
Proof. reflexivity. Qed.

(** The script base name of an owned identifier is the family prefix, the
    identifier's character at index 7, "xx", and its character at index 10:
    the characters at index 8 and 9 have no influence on it. *)
Theorem script_name_closed_form :
  forall p : string,
    owns p = true ->
    exists c d,
      String.get 7 p = Some c
      /\ String.get 10 p = Some d
      /\ linker_script_name p
         = Ok ("stm32f1" +:+ String c (String "x" (String "x" (String d "")))).
Proof.
  intros p Hp. pose proof (owns_length p Hp) as Hlen.
  rewrite linker_script_name_long by lia.
  destruct (owns_shape p Hp) as (a & b & c & d & ->).
  exists a, d. rewrite wildcard_owned_form. repeat split.
Qed.

Lemma script_name_closed_form_witness :
  owns "stm32f103c8" = true
  /\ exists c d,
      String.get 7 "stm32f103c8" = Some c
      /\ String.get 10 "stm32f103c8" = Some d
      /\ linker_script_name "stm32f103c8"
         = Ok ("stm32f1" +:+ String c (String "x" (String "x" (String d "")))).
Proof.
  split; [reflexivity|].
  apply (script_name_closed_form "stm32f103c8"). reflexivity.
Defined.

(** Two owned identifiers select the same linker script exactly when they
    agree at index 7 and at index 10. *)
Theorem same_script_iff_agree_at_7_and_10 :
  forall p q : string,
    owns p = true -> owns q = true ->
    (linker_script_name p = linker_script_name q
     <-> String.get 7 p = String.get 7 q /\ String.get 10 p = String.get 10 q).
Proof.
  intros p q Hp Hq.
  rewrite !linker_script_name_long
    by (rewrite owns_length by assumption; lia).
  destruct (owns_shape p Hp) as (a & b & c & d & ->).
  destruct (owns_shape q Hq) as (a' & b' & c' & d' & ->).
  rewrite !wildcard_owned_form. simpl. split.
  - intros E. injection E as -> ->. split; reflexivity.
  - intros [E1 E2]. injection E1 as ->. injection E2 as ->. reflexivity.
Qed.

Lemma same_script_iff_agree_at_7_and_10_witness :
  owns "stm32f103c8" = true /\ owns "stm32f101r8" = true
  /\ (linker_script_name "stm32f103c8" = linker_script_name "stm32f101r8"
      <-> String.get 7 "stm32f103c8" = String.get 7 "stm32f101r8"
          /\ String.get 10 "stm32f103c8" = String.get 10 "stm32f101r8").
Proof.
  split; [reflexivity|]. split; [reflexivity|].
  apply (same_script_iff_agree_at_7_and_10 "stm32f103c8" "stm32f101r8");
    reflexivity.
Defined.

(** The script base name of an owned identifier is itself an owned
    identifier, and deriving from it reproduces it: the name and the flags
    obtained from the name are those obtained from the identifier. *)
Theorem script_name_is_fixed_point :
  forall p folder : string,
    owns p = true ->
    exists name,
      linker_script_name p = Ok name
      /\ owns name = true
      /\ linker_script_name name = Ok name
      /\ derive_linker_config name folder = derive_linker_config p folder.
Proof.
  intros p folder Hp. pose proof (owns_length p Hp) as Hlen.
  exists (wildcard p). split; [apply linker_script_name_long; lia|].
  destruct (owns_shape p Hp) as (a & b & c & d & ->).
  rewrite wildcard_owned_form. repeat split.
Qed.

Lemma script_name_is_fixed_point_witness :
  owns "stm32f103c8" = true
  /\ exists name,
      linker_script_name "stm32f103c8" = Ok name
      /\ owns name = true
      /\ linker_script_name name = Ok name
      /\ derive_linker_config name "/pkg" = derive_linker_config "stm32f103c8" "/pkg".
Proof.
  split; [reflexivity|].
  apply (script_name_is_fixed_point "stm32f103c8" "/pkg"). reflexivity.
Defined.

(** ** The derivation without the guard *)

(** Whatever the identifier, owned or not, the method raises IndexError
    exactly when the identifier has fewer than 10 characters, and otherwise
    returns the recipe with two link flags, every other field as it was. *)
Theorem derivation_raises_iff_shorter_than_10 :
  forall self : ConanFile,
    (add_linker_scripts_to_link_flags self = Raise IndexError
     <-> String.length (options_platform self) < 10)
    /\ ((exists r,
           add_linker_scripts_to_link_flags self = Ok r
           /\ length (exelinkflags (cpp_info r)) = 2
           /\ libs (cpp_info r) = libs (cpp_info self)
           /\ properties (cpp_info r) = properties (cpp_info self)
           /\ buildenv_info r = buildenv_info self
           /\ settings_os r = settings_os self
           /\ options_platform r = options_platform self
           /\ package_folder r = package_folder self)
        <-> 10 <= String.length (options_platform self)).
Proof.
  intros self.
  destruct (Nat.lt_ge_cases (String.length (options_platform self)) 10) as [H|H].
  - assert (E : add_linker_scripts_to_link_flags self = Raise IndexError).
    { unfold add_linker_scripts_to_link_flags.
      now rewrite derive_linker_config_short. }
    rewrite E. split; [tauto|]. split; [|lia].
    intros (r & Hr & _). discriminate.
  - erewrite add_linker_scripts_exelinkflags
      by (apply derive_linker_config_long; exact H).
    split; [split; [discriminate | lia]|].
    split; [tauto|]. intros _. eexists. repeat split.
Qed.

Lemma path_join_script (n : string) :
  path_join "libhal-stm32f1" n
  = if startswith n "/" then n else "libhal-stm32f1/" +:+ n.
Proof. unfold path_join. destruct (startswith n "/"); reflexivity. Qed.

Lemma startswith_wildcard (p : string) :
  10 <= String.length p ->
  startswith (wildcard p +:+ ".ld") "/" = startswith p "/".
Proof.
  destruct p as [|c p]; simpl; [lia | reflexivity].
Qed.

(** Called on an identifier of 10 or more characters that does not begin
    with the path separator, the script flag is the relative path
    "libhal-stm32f1/<name>.ld"; when the identifier begins with the
    separator, the join discards the directory "libhal-stm32f1" and the
    script flag is the absolute path "<name>.ld". *)
Theorem script_flag_of_any_identifier :
  forall p folder : string,
    10 <= String.length p ->
    exists name,
      linker_script_name p = Ok name
      /\ derive_linker_config p folder
         = Ok [ "-L" +:+ path_join folder "linker_scripts";
                if startswith p "/"
                then "-T" +:+ name +:+ ".ld"
                else "-T" +:+ "libhal-stm32f1/" +:+ name +:+ ".ld" ].
Proof.
  intros p folder H. exists (wildcard p).
  split; [now apply linker_script_name_long|].
  rewrite derive_linker_config_long by exact H.
  rewrite path_join_script, startswith_wildcard by exact H.
  destruct (startswith p "/"); reflexivity.
Qed.

Lemma script_flag_of_any_identifier_witness :
  10 <= String.length "/tmp/script"
  /\ exists name,
      linker_script_name "/tmp/script" = Ok name
      /\ derive_linker_config "/tmp/script" "/pkg"
         = Ok [ "-L" +:+ path_join "/pkg" "linker_scripts";
                "-T" +:+ name +:+ ".ld" ].
Proof.
  split; [simpl; lia|].
  apply (script_flag_of_any_identifier "/tmp/script" "/pkg"). simpl; lia.
Defined.

(** ** The resolution step on any recipe state *)

Lemma package_info_emit_eq (self : ConanFile) (flags : list string) :
  String.eqb (settings_os self) "baremetal" && _is_me self = true ->
  derive_linker_config (options_platform self) (package_folder self) = Ok flags ->
  package_info self
  = Ok (mkConanFile (settings_os self) (options_platform self) (package_folder self)
          (mkCppInfo ["libhal-stm32f1"]
             (<["cmake_target_name" := "libhal::stm32f1"]> (properties (cpp_info self)))
             flags)
          (<["LIBHAL_PLATFORM_LIBRARY" := "stm32f1"]>
             (<["LIBHAL_PLATFORM" := options_platform self]> (buildenv_info self)))).
Proof.
  intros H Hd. unfold package_info, _is_me in *. simpl. rewrite H.
  unfold add_linker_scripts_to_link_flags. simpl. rewrite Hd. reflexivity.
Qed.

Lemma package_info_skip_eq (self : ConanFile) :
  String.eqb (settings_os self) "baremetal" && _is_me self = false ->
  package_info self
  = Ok (mkConanFile (settings_os self) (options_platform self) (package_folder self)
          (mkCppInfo ["libhal-stm32f1"]
             (<["cmake_target_name" := "libhal::stm32f1"]> (properties (cpp_info self)))
             (exelinkflags (cpp_info self)))
          (buildenv_info self)).
Proof.
  intros H. unfold package_info, _is_me in *. simpl. now rewrite H.
Qed.

Lemma guard_derives (self : ConanFile) :
  String.eqb (settings_os self) "baremetal" && _is_me self = true ->
  derive_linker_config (options_platform self) (package_folder self)
  = Ok [ "-L" +:+ path_join (package_folder self) "linker_scripts";
         "-T" +:+ path_join "libhal-stm32f1" (wildcard (options_platform self) +:+ ".ld") ].
Proof.
  intros H. apply andb_true_iff in H as [_ Hme].
  apply derive_linker_config_long. rewrite (owns_length _ Hme). lia.
Qed.

(** Whatever the settings and the state of the recipe, the resolution step
    returns normally, names the library "libhal-stm32f1" (replacing any
    earlier list), sets the property "cmake_target_name" to
    "libhal::stm32f1" and leaves every other property, the settings, the
    platform option and the package folder as they were. *)
Theorem package_info_declares_library :
  forall self : ConanFile,
    exists r,
      package_info self = Ok r
      /\ libs (cpp_info r) = ["libhal-stm32f1"]
      /\ properties (cpp_info r) !! "cmake_target_name" = Some "libhal::stm32f1"
      /\ (forall k, k <> "cmake_target_name" ->
            properties (cpp_info r) !! k = properties (cpp_info self) !! k)
      /\ settings_os r = settings_os self
      /\ options_platform r = options_platform self
      /\ package_folder r = package_folder self.
Proof.
  intros self.
  destruct (String.eqb (settings_os self) "baremetal" && _is_me self) eqn:Hc.
  - rewrite (package_info_emit_eq self _ Hc (guard_derives self Hc)).
    eexists. split; [reflexivity|]. simpl.
    split; [reflexivity|]. split; [apply lookup_insert_eq|].
    split; [|repeat split]. intros k Hk. apply lookup_insert_ne. congruence.
  - rewrite (package_info_skip_eq self Hc).
    eexists. split; [reflexivity|]. simpl.
    split; [reflexivity|]. split; [apply lookup_insert_eq|].
    split; [|repeat split]. intros k Hk. apply lookup_insert_ne. congruence.
Qed.

(** On a bare-metal target with an owned identifier, the step replaces the
    link flags: flags the recipe held before are discarded, and the result
    is the pair a recipe that exposes nothing yet would get.  The build
    environment keeps every variable defined before, except that the two
    exported names take their new values. *)
Theorem package_info_overwrites_flags_keeps_environment :
  forall self : ConanFile,
    settings_os self = "baremetal" ->
    _is_me self = true ->
    exists r r0,
      package_info self = Ok r
      /\ package_info (new_recipe "baremetal" (options_platform self) (package_folder self))
         = Ok r0
      /\ exelinkflags (cpp_info r) = exelinkflags (cpp_info r0)
      /\ length (exelinkflags (cpp_info r)) = 2
      /\ buildenv_info r !! "LIBHAL_PLATFORM" = Some (options_platform self)
      /\ buildenv_info r !! "LIBHAL_PLATFORM_LIBRARY" = Some "stm32f1"
      /\ (forall k, k <> "LIBHAL_PLATFORM" -> k <> "LIBHAL_PLATFORM_LIBRARY" ->
            buildenv_info r !! k = buildenv_info self !! k).
Proof.
  intros self Hos Hme.
  assert (Hc : String.eqb (settings_os self) "baremetal" && _is_me self = true).
  { rewrite Hos, Hme. reflexivity. }
  assert (Hc0 : String.eqb
                  (settings_os (new_recipe "baremetal" (options_platform self)
                                  (package_folder self))) "baremetal"
                && _is_me (new_recipe "baremetal" (options_platform self)
                             (package_folder self)) = true).
  { simpl. exact Hme. }
  rewrite (package_info_emit_eq self _ Hc (guard_derives self Hc)).
  rewrite (package_info_emit_eq _ _ Hc0 (guard_derives _ Hc0)).
  do 2 eexists. split; [reflexivity|]. split; [reflexivity|]. simpl.
  split; [reflexivity|]. split; [reflexivity|].
  split; [now rewrite lookup_insert_ne, lookup_insert_eq|].
  split; [apply lookup_insert_eq|].
  intros k H1 H2. now rewrite !lookup_insert_ne by congruence.
Qed.

Lemma package_info_overwrites_flags_keeps_environment_witness :
  let self := mkConanFile "baremetal" "stm32f103c8" "/pkg"
                (mkCppInfo ["old"] ∅ ["-Wl,--gc-sections"; "-nostdlib"; "-static"])
                {["LIBHAL_PLATFORM" := "lpc4078"; "CC" := "arm-none-eabi-gcc"]} in
  settings_os self = "baremetal"
  /\ _is_me self = true
  /\ exists r r0,
      package_info self = Ok r
      /\ package_info (new_recipe "baremetal" (options_platform self) (package_folder self))
         = Ok r0
      /\ exelinkflags (cpp_info r) = exelinkflags (cpp_info r0)
      /\ length (exelinkflags (cpp_info r)) = 2
      /\ buildenv_info r !! "LIBHAL_PLATFORM" = Some (options_platform self)
      /\ buildenv_info r !! "LIBHAL_PLATFORM_LIBRARY" = Some "stm32f1"
      /\ (forall k, k <> "LIBHAL_PLATFORM" -> k <> "LIBHAL_PLATFORM_LIBRARY" ->
            buildenv_info r !! k = buildenv_info self !! k).
Proof.
  intros self. split; [reflexivity|]. split; [reflexivity|].
  apply (package_info_overwrites_flags_keeps_environment self); reflexivity.
Defined.

Lemma define_exports_twice (p : string) (env : gmap string string) :
  <["LIBHAL_PLATFORM_LIBRARY" := "stm32f1"]>
    (<["LIBHAL_PLATFORM" := p]>
       (<["LIBHAL_PLATFORM_LIBRARY" := "stm32f1"]> (<["LIBHAL_PLATFORM" := p]> env)))
  = <["LIBHAL_PLATFORM_LIBRARY" := "stm32f1"]> (<["LIBHAL_PLATFORM" := p]> env).
Proof.
  apply map_eq. intros k.
  destruct (decide (k = "LIBHAL_PLATFORM_LIBRARY")) as [->|H1].
  - now rewrite !lookup_insert_eq.
  - rewrite !(lookup_insert_ne _ "LIBHAL_PLATFORM_LIBRARY") by congruence.
    destruct (decide (k = "LIBHAL_PLATFORM")) as [->|H2].
    + now rewrite !lookup_insert_eq.
    + now rewrite !lookup_insert_ne by congruence.
Qed.

(** The resolution step is idempotent: run on its own result it returns
    that result unchanged, in the guarded branch as well as otherwise. *)
Theorem package_info_idempotent :
  forall self : ConanFile,
    exists r, package_info self = Ok r /\ package_info r = Ok r.
Proof.
  intros self.
  destruct (String.eqb (settings_os self) "baremetal" && _is_me self) eqn:Hc.
  - pose proof (guard_derives self Hc) as Hd.
    rewrite (package_info_emit_eq self _ Hc Hd).
    eexists. split; [reflexivity|].
    erewrite package_info_emit_eq; [| exact Hc | exact Hd]. simpl.
    now rewrite insert_insert_eq, define_exports_twice.
  - rewrite (package_info_skip_eq self Hc).
    eexists. split; [reflexivity|].
    rewrite package_info_skip_eq by exact Hc. simpl.
    now rewrite insert_insert_eq.
Qed.

(** ** Package identity on any options record *)

(** The identity normalisation is idempotent, and after it the option
    "platform" is absent or false in a condition: a second call finds
    nothing to remove and returns the record unchanged. *)
Theorem package_id_idempotent :
  forall (V : Type) (truthy : V -> bool) (opts : gmap string V),
    exists o,
      package_id truthy opts = Ok o
      /\ cond_of truthy (get_safe "platform" o) = false
      /\ package_id truthy o = Ok o.
Proof.
  intros V truthy opts.
  destruct (opts !! "platform") as [v|] eqn:Hv; [destruct (truthy v) eqn:Ht|].
  - exists (delete "platform" opts).
    rewrite (package_id_truthy truthy opts v Hv Ht).
    split; [reflexivity|].
    assert (Hd : delete "platform" opts !! "platform" = None)
      by apply lookup_delete_eq.
    split; [unfold get_safe; now rewrite Hd|].
    now apply package_id_absent.
  - exists opts. rewrite (package_id_falsy truthy opts v Hv Ht).
    split; [reflexivity|].
    split; [unfold get_safe; rewrite Hv; exact Ht | reflexivity].
  - exists opts. rewrite (package_id_absent truthy opts Hv).
    split; [reflexivity|].
    split; [unfold get_safe; now rewrite Hv | reflexivity].
Qed.

(** Two options records that agree on every option other than "platform",
    each with a "platform" value that is true in a condition, get the same
    identity record: the platform value does not distinguish packages. *)
Theorem package_id_forgets_platform :
  forall (V : Type) (truthy : V -> bool) (o1 o2 : gmap string V) (v1 v2 : V),
    o1 !! "platform" = Some v1 -> truthy v1 = true ->
    o2 !! "platform" = Some v2 -> truthy v2 = true ->
    (forall k, k <> "platform" -> o1 !! k = o2 !! k) ->
    exists o,
      package_id truthy o1 = Ok o
      /\ package_id truthy o2 = Ok o
      /\ o !! "platform" = None.
Proof.
  intros V truthy o1 o2 v1 v2 H1 T1 H2 T2 Hagree.
  exists (delete "platform" o1).
  rewrite (package_id_truthy truthy o1 v1 H1 T1).
  rewrite (package_id_truthy truthy o2 v2 H2 T2).
  split; [reflexivity|]. split; [|apply lookup_delete_eq].
  f_equal. apply map_eq. intros k.
  destruct (decide (k = "platform")) as [->|Hk].
  - now rewrite !lookup_delete_eq.
  - rewrite !lookup_delete_ne by congruence. symmetry. now apply Hagree.
Qed.

Lemma package_id_forgets_platform_witness :
  let o1 : gmap string string :=
    {["platform" := "stm32f103c8"; "shared" := "False"]} in
  let o2 : gmap string string :=
    {["platform" := "stm32f103rb"; "shared" := "False"]} in
  o1 !! "platform" = Some "stm32f103c8" /\ str_bool "stm32f103c8" = true
  /\ o2 !! "platform" = Some "stm32f103rb" /\ str_bool "stm32f103rb" = true
  /\ (forall k, k <> "platform" -> o1 !! k = o2 !! k)
  /\ exists o,
      package_id str_bool o1 = Ok o
      /\ package_id str_bool o2 = Ok o
      /\ o !! "platform" = None.
Proof.
  intros o1 o2.
  assert (H1 : o1 !! "platform" = Some "stm32f103c8") by (vm_compute; reflexivity).
  assert (H2 : o2 !! "platform" = Some "stm32f103rb") by (vm_compute; reflexivity).
  assert (Ha : forall k, k <> "platform" -> o1 !! k = o2 !! k).
  { intros k Hk. unfold o1, o2. now rewrite !lookup_insert_ne by congruence. }
  split; [exact H1|]. split; [reflexivity|].
  split; [exact H2|]. split; [reflexivity|]. split; [exact Ha|].
  apply (package_id_forgets_platform string str_bool o1 o2
           "stm32f103c8" "stm32f103rb" H1 eq_refl H2 eq_refl Ha).
Defined.
